(** * ReAct-Example.py: the three demonstration tools and the driver script

    A shallow embedding of [ReAct-Example.py].  The script reads a credential
    from the process environment, wraps three Python functions as tools for
    an agent library, sends one question to the agent and finally probes the
    agent object for its prompt.

    - Python [str] values are [string]s: sequences of code points below 256
      (the Latin-1 range), on which [str.lower] is a per-character map.
    - The numbers the tools are called with are Python [int]s ([Z]) and
      [float]s (IEEE-754 binary64, the primitive [float]), also mixed.
    - Statements run in the monad [IO]: they read and change a [World]
      (the process environment, what was printed so far, the calls made
      into the agent library) and either return a value or raise.
    - Everything the script does not define itself (dotenv, the model
      handle, the agent and its internals) is a field of [External]. *)

From Stdlib Require Import ZArith String Ascii List Floats.PrimFloat.
From Stdlib Require Import Floats.SpecFloat Floats.FloatOps Floats.FloatAxioms.
From stdpp Require Import gmap strings list.

Open Scope string_scope.

(** ** Python strings *)

Module PyStr.

(** Code points with a lowercase partner in the Latin-1 range:
    [A-Z], and [U+00C0-U+00DE] except the multiplication sign [U+00D7].
    The partner is 32 places further. *)
Definition is_upper (n : N) : bool :=
  ((65 <=? n) && (n <=? 90) ||
   (192 <=? n) && (n <=? 222) && negb (n =? 215))%N.

Definition lower_char (c : ascii) : ascii :=
  let n := N_of_ascii c in
  if is_upper n then ascii_of_N (n + 32) else c.

(** [s.lower()] *)
Fixpoint lower (s : string) : string :=
  match s with
  | EmptyString => EmptyString
  | String c s' => String (lower_char c) (lower s')
  end.

(** [needle in hay]: some suffix of [hay] starts with [needle]. *)
Fixpoint contains (needle hay : string) : bool :=
  String.prefix needle hay ||
  match hay with
  | EmptyString => false
  | String _ hay' => contains needle hay'
  end.

(** The same as a proposition: [hay] is [needle] with text around it. *)
Definition Contains (needle hay : string) : Prop :=
  exists pre post, hay = pre ++ needle ++ post.

End PyStr.

Import PyStr.

(** ** The Python runtime the script relies on *)

(** The exceptions met in the script.  [str(e)] is the carried message.
    The first four are instances of Python's [Exception], and
    [OtherException] stands for any further one; [SystemExiting] stands
    for the exceptions outside [Exception]: [KeyboardInterrupt],
    [SystemExit], [GeneratorExit]. *)
Inductive exn : Type :=
| ValueError (msg : string)
| AttributeError (msg : string)
| OverflowError (msg : string)
| OtherException (msg : string)
| SystemExiting (msg : string).

Definition exn_str (e : exn) : string :=
  match e with
  | ValueError msg | AttributeError msg | OverflowError msg
  | OtherException msg | SystemExiting msg => msg
  end.

(** [isinstance(e, Exception)] *)
Definition is_Exception (e : exn) : bool :=
  match e with
  | SystemExiting _ => false
  | _ => true
  end.

Inductive outcome (A : Type) : Type :=
| Returned (a : A)
| Raised (e : exn).
Arguments Returned {A} a.
Arguments Raised {A} e.

(** One [print] call writes one [line]: the pieces of its f-string in
    order.  A formatted number stays symbolic ([repr] of a float is not
    spelled out); a formatted [str] is its own text. *)
Inductive piece : Type :=
| Text (s : string)
| FloatRepr (x : float)
| IntRepr (z : Z).

Definition line : Type := list piece.

(** The functions defined by the script. *)
Inductive pyfn : Type := fn_multiply | fn_add | fn_search_wikipedia.

(** What the script keeps of a tool descriptor: the wrapped function and
    the name it is registered under. *)
Record FunctionTool : Type := { fn : pyfn; name : string }.

(** Calls from the script into the agent library, and from the agent into
    the script's tools. *)
Inductive call : Type :=
| FunctionTool_from_defaults (f : pyfn) (n : string)
| GoogleGenAI (model api_key : string)
| ReActAgent_from_tools (tools : list FunctionTool) (verbose : bool)
| agent_chat (question : string)
| tool_invocation (f : pyfn).

Record World : Type := {
  environ : gmap string string;   (* os.environ *)
  stdout : list line;             (* one entry per print call, oldest first *)
  calls : list call               (* oldest first *)
}.

Definition IO (A : Type) : Type := World -> World * outcome A.

#[export] Instance IO_ret : MRet IO := fun A a w => (w, Returned a).

#[export] Instance IO_bind : MBind IO := fun A B k m w =>
  match m w with
  | (w', Returned a) => k a w'
  | (w', Raised e) => (w', Raised e)
  end.

Definition raise {A : Type} (e : exn) : IO A := fun w => (w, Raised e).

(** [try: body except ...].  [clauses e] is the body of the first [except]
    clause that matches [e]; when none matches, [e] goes on to the caller. *)
Definition try_except {A : Type} (body : IO A) (clauses : exn -> option (IO A)) : IO A :=
  fun w =>
    match body w with
    | (w', Returned a) => (w', Returned a)
    | (w', Raised e) =>
        match clauses e with
        | Some handler => handler w'
        | None => (w', Raised e)
        end
    end.

(** Lift the outcome of an external operation into the script. *)
Definition perform {A : Type} (o : outcome A) : IO A := fun w => (w, o).

Definition wrote (ls : list line) (w : World) : World :=
  {| environ := environ w; stdout := stdout w ++ ls; calls := calls w |}.

Definition called (cs : list call) (w : World) : World :=
  {| environ := environ w; stdout := stdout w; calls := calls w ++ cs |}.

Definition print (l : line) : IO unit := fun w => (wrote [l] w, Returned tt).

Definition log_call (c : call) : IO unit := fun w => (called [c] w, Returned tt).

(** [os.getenv(key)] *)
Definition os_getenv (key : string) : IO (option string) :=
  fun w => (w, Returned (environ w !! key)).

(** Truth value of [os.getenv]'s result: [None] and the empty string are
    false. *)
Definition truthy (v : option string) : bool :=
  match v with
  | None | Some EmptyString => false
  | Some _ => true
  end.

(** The value a run returns or the exception it raises, and what it has
    printed. *)
Definition result {A : Type} (m : IO A) (w : World) : outcome A := snd (m w).
Definition after {A : Type} (m : IO A) (w : World) : World := fst (m w).

(** ** Python numbers *)

(** What the tools are called with: an [int] or a [float]. *)
Inductive number : Type :=
| PyInt (z : Z)
| PyFloat (x : float).

Coercion PyInt : Z >-> number.
Coercion PyFloat : float >-> number.

(** An [int] is turned into decimal text only when it has at most 4300
    digits (CPython's default limit); a [float] always. *)
Definition int_str_limit : Z := 10 ^ 4300.

Definition printable (n : number) : bool :=
  match n with
  | PyInt z => (Z.abs z <? int_str_limit)%Z
  | PyFloat _ => true
  end.

Definition int_str_limit_message : string :=
  "Exceeds the limit (4300 digits) for integer string conversion; use sys.set_int_max_str_digits() to increase the limit".

Definition shown (n : number) : piece :=
  match n with
  | PyInt z => IntRepr z
  | PyFloat x => FloatRepr x
  end.

(** [{n}] inside an f-string. *)
Definition py_format (n : number) : outcome piece :=
  if printable n then Returned (shown n)
  else Raised (ValueError int_str_limit_message).

(** The [int] as a [float], rounded to nearest even, for arithmetic with a
    [float]; an [int] that would round beyond the largest [float] raises. *)
Definition float_of_int (z : Z) : outcome float :=
  match binary_normalize prec emax z 0 false with
  | S754_infinity _ => Raised (OverflowError "int too large to convert to float")
  | x => Returned (SF2Prim x)
  end.

(** [a OP b] for [+] and [*]: on two [int]s the integer operation, on two
    [float]s the binary64 one, on a mixed pair the binary64 one after
    converting the [int]. *)
Definition arith (int_op : Z -> Z -> Z) (float_op : float -> float -> float)
    (a b : number) : outcome number :=
  match a, b with
  | PyInt x, PyInt y => Returned (PyInt (int_op x y))
  | PyFloat x, PyFloat y => Returned (PyFloat (float_op x y))
  | PyInt x, PyFloat y =>
      match float_of_int x with
      | Returned x' => Returned (PyFloat (float_op x' y))
      | Raised e => Raised e
      end
  | PyFloat x, PyInt y =>
      match float_of_int y with
      | Returned y' => Returned (PyFloat (float_op x y'))
      | Raised e => Raised e
      end
  end.

Definition py_add : number -> number -> outcome number := arith Z.add PrimFloat.add.
Definition py_mul : number -> number -> outcome number := arith Z.mul PrimFloat.mul.

(** ** The tools (lines 29-66) *)

Definition multiply (a b : number) : IO number :=
  shown_a ← perform (py_format a);
  shown_b ← perform (py_format b);
  print [Text "--- Calling Multiply Tool with: a="; shown_a;
         Text ", b="; shown_b; Text " ---"];;
  perform (py_mul a b).

Definition add (a b : number) : IO number :=
  shown_a ← perform (py_format a);
  shown_b ← perform (py_format b);
  print [Text "--- Calling Add Tool with: a="; shown_a;
         Text ", b="; shown_b; Text " ---"];;
  perform (py_add a b).

Definition alan_turing_text : string :=
  "Alan Turing was a British mathematician, computer scientist, logician, cryptanalyst, philosopher, and theoretical biologist. He was highly influential in the development of theoretical computer science.".

Definition llama_text : string :=
  "A llama is a domesticated South American camelid, widely used as a meat and pack animal by Andean cultures since the Pre-Columbian era.".

Definition react_agent_text : string :=
  "A ReAct Agent combines Reasoning and Acting within large language models. It generates verbal reasoning traces and actions pertaining to a task, allowing for dynamic reasoning, tool use, and information gathering.".

(** The f-string of the last branch. *)
Definition not_found_text (query : string) : string :=
  "Couldn't find information about '" ++ query ++ "' on Fake Wikipedia.".

Definition search_wikipedia (query : string) : IO string :=
  print [Text "--- Calling Wikipedia Tool with query: "; Text query; Text " ---"];;
  let query := lower query in
  if contains "alan turing" query then mret alan_turing_text
  else if contains "llama" query then mret llama_text
  else if contains "react agent" query then mret react_agent_text
  else mret (not_found_text query).

(** ** What the script takes from outside *)

(** A call of one of the tools by the agent, with arguments of the
    parameters' kinds. *)
Inductive tool_call : Type :=
| call_multiply (a b : number)
| call_add (a b : number)
| call_search_wikipedia (query : string).

(** While it answers, the agent calls tools and (being verbose) prints. *)
Inductive agent_step : Type :=
| Invoke (c : tool_call)
| Say (l : line).

(** The agent's internals as the last block of the script meets them.  Each
    field is what one expression of that block evaluates to: a value (of
    which only its text is ever used) or an exception.  The [probe_] fields
    are the attribute look-ups made inside [hasattr]. *)
Record Internals : Type := {
  agent_worker : outcome unit;               (* agent.agent_worker *)
  probe_react_chat_formatter : outcome unit; (* hasattr(agent_worker, '_react_chat_formatter') *)
  react_chat_formatter : outcome unit;       (* agent_worker._react_chat_formatter *)
  probe_system_header : outcome unit;        (* hasattr(formatter, 'system_header') *)
  system_header : outcome unit;              (* formatter.system_header *)
  str_system_header : outcome string;        (* its text, for print *)
  probe_get_tool_description : outcome unit; (* hasattr(formatter, '_get_tool_description') *)
  get_tool_description : outcome unit;       (* formatter._get_tool_description(tools) *)
  str_tool_description : outcome string;     (* its text, for print *)
  dir_formatter : outcome string;            (* dir(formatter), as text *)
  probe_get_system_prompt : outcome unit;    (* hasattr(agent_worker, 'get_system_prompt') *)
  get_system_prompt : outcome unit;          (* agent_worker.get_system_prompt(tools=tools) *)
  str_system_prompt : outcome string;        (* its text, for print *)
  dir_agent_worker : outcome string          (* dir(agent_worker), as text *)
}.

Record External : Type := {
  load_dotenv : gmap string string -> gmap string string;
  new_GoogleGenAI : string -> string -> outcome unit;
  new_ReActAgent : list FunctionTool -> bool -> outcome unit;
  chat : string -> list agent_step * outcome unit;
  str_response : outcome string;             (* the response's text, for print *)
  internals : Internals
}.

(** ** Configuration (lines 17-21) *)

Definition run_load_dotenv (ext : External) : IO unit :=
  fun w =>
    ({| environ := load_dotenv ext (environ w);
        stdout := stdout w; calls := calls w |}, Returned tt).

Definition missing_key_message : string :=
  "GOOGLE_API_KEY not found in environment variables. Please set it in your .env file.".

Definition configuration (ext : External) : IO string :=
  run_load_dotenv ext;;
  google_api_key ← os_getenv "GOOGLE_API_KEY";
  if negb (truthy google_api_key)
  then raise (ValueError missing_key_message)
  else mret (default "" google_api_key).

(** ** The registry (lines 70-75) *)

Definition from_defaults (f : pyfn) (n : string) : IO FunctionTool :=
  log_call (FunctionTool_from_defaults f n);;
  mret {| fn := f; name := n |}.

Definition build_tools : IO (list FunctionTool) :=
  multiply_tool ← from_defaults fn_multiply "multiply_numbers";
  add_tool ← from_defaults fn_add "add_numbers";
  wikipedia_tool ← from_defaults fn_search_wikipedia "wikipedia_search";
  mret [multiply_tool; add_tool; wikipedia_tool].

(** ** The agent (lines 80-99) *)

(** What a tool returns or raises goes to the agent that called it; how
    the agent goes on from there is part of [chat]. *)
Definition delivered {A : Type} (tool : IO A) : IO unit :=
  fun w => (fst (tool w), Returned tt).

Definition invoke (c : tool_call) : IO unit :=
  match c with
  | call_multiply a b =>
      log_call (tool_invocation fn_multiply);; delivered (multiply a b)
  | call_add a b =>
      log_call (tool_invocation fn_add);; delivered (add a b)
  | call_search_wikipedia q =>
      log_call (tool_invocation fn_search_wikipedia);; delivered (search_wikipedia q)
  end.

Fixpoint run_steps (steps : list agent_step) : IO unit :=
  match steps with
  | [] => mret tt
  | Invoke c :: rest => invoke c;; run_steps rest
  | Say l :: rest => print l;; run_steps rest
  end.

Definition nl : string := String "010"%char "".

Definition question : string :=
  "Who was Alan Turing and what is 5 added to 12.5?".

Definition run_agent (ext : External) (google_api_key : string)
    (tools : list FunctionTool) : IO unit :=
  log_call (GoogleGenAI "gemini-2.0-flash-lite" google_api_key);;
  perform (new_GoogleGenAI ext "gemini-2.0-flash-lite" google_api_key);;
  log_call (ReActAgent_from_tools tools true);;
  perform (new_ReActAgent ext tools true);;
  print [Text "--- Starting Agent ---"];;
  log_call (agent_chat question);;
  run_steps (fst (chat ext question));;
  perform (snd (chat ext question));;
  print [Text (nl ++ "--- Final Answer ---")];;
  response ← perform (str_response ext);
  print [Text response];;
  print [Text (nl ++ "--- Agent Finished ---")].

(** ** Looking into the agent (lines 103-158) *)

(** [hasattr(obj, name)]: true when the look-up returns, false when it
    raises [AttributeError]; any other exception passes through. *)
Definition hasattr (lookup : outcome unit) : IO bool :=
  match lookup with
  | Returned _ => mret true
  | Raised (AttributeError _) => mret false
  | Raised e => raise e
  end.

(** The body of the [try] (lines 105-148). *)
Definition probe (i : Internals) : IO unit :=
  perform (agent_worker i);;
  has_formatter ← hasattr (probe_react_chat_formatter i);
  if (has_formatter : bool) then
    perform (react_chat_formatter i);;
    has_header ← hasattr (probe_system_header i);
    if (has_header : bool) then
      perform (system_header i);;
      print [Text (nl ++ "--- System Prompt ---")];;
      system_prompt ← perform (str_system_header i);
      print [Text system_prompt];;
      print [Text ("---------------------" ++ nl)];;
      has_description ← hasattr (probe_get_tool_description i);
      if (has_description : bool) then
        perform (get_tool_description i);;
        print [Text (nl ++ "--- Generated Tool Description (Part of Prompt) ---")];;
        tool_desc ← perform (str_tool_description i);
        print [Text tool_desc];;
        print [Text ("----------------------------------------------------" ++ nl)]
      else
        print [Text "(Could not find method to get formatted tool description)"]
    else
      print [Text "Could not find 'system_header' attribute on the formatter."];;
      print [Text "Agent's internal structure might have changed."];;
      attributes ← perform (dir_formatter i);
      print [Text "Try inspecting formatter attributes:"; Text " "; Text attributes]
  else
    has_method ← hasattr (probe_get_system_prompt i);
    if (has_method : bool) then
      perform (get_system_prompt i);;
      print [Text (nl ++ "--- System Prompt (via get_system_prompt) ---")];;
      system_prompt ← perform (str_system_prompt i);
      print [Text system_prompt];;
      print [Text ("---------------------------------------------" ++ nl)]
    else
      print [Text "Could not find '_react_chat_formatter' or 'get_system_prompt' on the agent worker."];;
      print [Text "Agent's internal structure might differ based on LlamaIndex version."];;
      attributes ← perform (dir_agent_worker i);
      print [Text "Try inspecting agent_worker attributes:"; Text " "; Text attributes].

(** The two [except] clauses (lines 150-158): the first takes an
    [AttributeError], the second any other [Exception]; what is not an
    [Exception] is taken by neither. *)
Definition except_clauses (e : exn) : option (IO unit) :=
  match e with
  | AttributeError msg =>
      Some (print [Text (nl ++ "Error accessing internal agent attributes: "); Text msg];;
            print [Text "This often happens if LlamaIndex internal structure has changed between versions."];;
            print [Text "Try inspecting the agent object directly:"])
  | SystemExiting _ => None
  | e =>
      Some (print [Text (nl ++ "An unexpected error occurred: "); Text (exn_str e)])
  end.

Definition introspection (i : Internals) : IO unit :=
  try_except (probe i) except_clauses.

(** ** The whole script *)

(** Lines 17-99: everything before the last block. *)
Definition driver (ext : External) : IO unit :=
  google_api_key ← configuration ext;
  tools ← build_tools;
  run_agent ext google_api_key tools.

Definition script (ext : External) : IO unit :=
  driver ext;;
  introspection (internals ext).

(** * What the properties are stated with *)

(** ** Matching without regard to case *)

(** [key] occurs in [query] up to the case of letters: some stretch of
    [query] lowercases to the same text as [key]. *)
Definition occurs_ignoring_case (key query : string) : Prop :=
  exists pre mid post, query = pre ++ mid ++ post /\ lower mid = lower key.

(** The keys of the three branches, in the order of the [if] chain. *)
Definition keys : list string := ["alan turing"; "llama"; "react agent"].

Definition no_key_occurs (query : string) : Prop :=
  Forall (fun key => ~ occurs_ignoring_case key query) keys.

(** The lookup the specification describes: a table of three entries in a
    fixed order, searched from the front for the first key found in the
    lowercased query. *)
Definition table : list (string * string) :=
  [ ("alan turing", alan_turing_text);
    ("llama", llama_text);
    ("react agent", react_agent_text) ].

Definition first_match (query : string) : option (string * string) :=
  List.find (fun entry => contains (fst entry) (lower query)) table.

Definition lookup_in_order (query : string) : string :=
  match first_match query with
  | Some (_, text) => text
  | None => not_found_text (lower query)
  end.

(** A world with nothing printed and no call made yet. *)
Definition fresh (env : gmap string string) : World :=
  {| environ := env; stdout := []; calls := [] |}.

(** A stand-in for the outside world: no [.env] file, constructors that
    succeed, an agent that looks up Alan Turing, adds 5 and 12.5 and
    answers, and internals without any of the attributes looked for. *)
Definition bare_internals : Internals :=
  let missing := Raised (AttributeError "no such attribute") in
  {| agent_worker := Returned tt;
     probe_react_chat_formatter := missing;
     react_chat_formatter := missing;
     probe_system_header := missing;
     system_header := missing;
     str_system_header := Raised (AttributeError "no such attribute");
     probe_get_tool_description := missing;
     get_tool_description := missing;
     str_tool_description := Raised (AttributeError "no such attribute");
     dir_formatter := Raised (AttributeError "no such attribute");
     probe_get_system_prompt := missing;
     get_system_prompt := missing;
     str_system_prompt := Raised (AttributeError "no such attribute");
     dir_agent_worker := Returned "['chat']" |}.

Definition demo : External :=
  {| load_dotenv := fun env => env;
     new_GoogleGenAI := fun _ _ => Returned tt;
     new_ReActAgent := fun _ _ => Returned tt;
     chat := fun _ =>
       ([Invoke (call_search_wikipedia "Alan Turing");
         Invoke (call_add 5%Z 12.5%float)],
        Returned tt);
     str_response := Returned "17.5";
     internals := bare_internals |}.

(** ** Whole runs *)

(** The world once [load_dotenv] has run. *)
Definition loaded (ext : External) (w : World) : World :=
  {| environ := load_dotenv ext (environ w);
     stdout := stdout w; calls := calls w |}.

(** What a run prints and which calls it makes, seen from a fresh world. *)
Definition printed_by {A : Type} (m : IO A) : list line :=
  stdout (after m (fresh ∅)).

Definition calls_by {A : Type} (m : IO A) : list call :=
  calls (after m (fresh ∅)).

(** A run that, from every world, adds the lines [out] and the calls [cs]
    and ends with [r]; it neither reads nor changes anything else. *)
Definition behaves {A : Type} (m : IO A)
    (out : list line) (cs : list call) (r : outcome A) : Prop :=
  forall w, m w = (called cs (wrote out w), r).

(** A run that does not depend on the world it starts in. *)
Definition world_blind {A : Type} (m : IO A) : Prop :=
  exists out cs r, behaves m out cs r.

(** The registry and the calls that build it (lines 70-75). *)
Definition registry : list FunctionTool :=
  [ {| fn := fn_multiply; name := "multiply_numbers" |};
    {| fn := fn_add; name := "add_numbers" |};
    {| fn := fn_search_wikipedia; name := "wikipedia_search" |} ].

Definition registration : list call :=
  [ FunctionTool_from_defaults fn_multiply "multiply_numbers";
    FunctionTool_from_defaults fn_add "add_numbers";
    FunctionTool_from_defaults fn_search_wikipedia "wikipedia_search" ].

Definition model_name : string := "gemini-2.0-flash-lite".

(** The three banners of lines 90-99. *)
Definition starting_banner : line := [Text "--- Starting Agent ---"].
Definition final_answer_banner : line := [Text (nl ++ "--- Final Answer ---")].
Definition finished_banner : line := [Text (nl ++ "--- Agent Finished ---")].

(** The same internals with other answers to everything that concerns
    [get_system_prompt] and the listing of the worker's attributes. *)
Definition with_get_system_prompt (i : Internals)
    (probed called_ : outcome unit) (text listing : outcome string) : Internals :=
  {| agent_worker := agent_worker i;
     probe_react_chat_formatter := probe_react_chat_formatter i;
     react_chat_formatter := react_chat_formatter i;
     probe_system_header := probe_system_header i;
     system_header := system_header i;
     str_system_header := str_system_header i;
     probe_get_tool_description := probe_get_tool_description i;
     get_tool_description := get_tool_description i;
     str_tool_description := str_tool_description i;
     dir_formatter := dir_formatter i;
     probe_get_system_prompt := probed;
     get_system_prompt := called_;
     str_system_prompt := text;
     dir_agent_worker := listing |}.

(** Internals of the shape the last block hopes for. *)
Definition full_internals : Internals :=
  {| agent_worker := Returned tt;
     probe_react_chat_formatter := Returned tt;
     react_chat_formatter := Returned tt;
     probe_system_header := Returned tt;
     system_header := Returned tt;
     str_system_header := Returned "You are designed to help.";
     probe_get_tool_description := Returned tt;
     get_tool_description := Returned tt;
     str_tool_description := Returned "> Tool Name: add_numbers";
     dir_formatter := Returned "['system_header']";
     probe_get_system_prompt := Raised (AttributeError "no such attribute");
     get_system_prompt := Raised (AttributeError "no such attribute");
     str_system_prompt := Raised (AttributeError "no such attribute");
     dir_agent_worker := Returned "['_react_chat_formatter']" |}.



(** What the [except] clauses print for an exception they take. *)
Definition reported (e : exn) : list line :=
  match e with
  | AttributeError msg =>
      [ [Text (nl ++ "Error accessing internal agent attributes: "); Text msg];
        [Text "This often happens if LlamaIndex internal structure has changed between versions."];
        [Text "Try inspecting the agent object directly:"] ]
  | _ => [ [Text (nl ++ "An unexpected error occurred: "); Text (exn_str e)] ]
  end.

(** Internals of an agent whose worker is being looked up when the user
    interrupts, and the demo world with them. *)
Definition interrupted_internals : Internals :=
  {| agent_worker := Raised (SystemExiting "KeyboardInterrupt");
     probe_react_chat_formatter := probe_react_chat_formatter bare_internals;
     react_chat_formatter := react_chat_formatter bare_internals;
     probe_system_header := probe_system_header bare_internals;
     system_header := system_header bare_internals;
     str_system_header := str_system_header bare_internals;
     probe_get_tool_description := probe_get_tool_description bare_internals;
     get_tool_description := get_tool_description bare_internals;
     str_tool_description := str_tool_description bare_internals;
     dir_formatter := dir_formatter bare_internals;
     probe_get_system_prompt := probe_get_system_prompt bare_internals;
     get_system_prompt := get_system_prompt bare_internals;
     str_system_prompt := str_system_prompt bare_internals;
     dir_agent_worker := dir_agent_worker bare_internals |}.

Definition demo_interrupted : External :=
  {| load_dotenv := load_dotenv demo;
     new_GoogleGenAI := new_GoogleGenAI demo;
     new_ReActAgent := new_ReActAgent demo;
     chat := chat demo;
     str_response := str_response demo;
     internals := interrupted_internals |}.

(** The demo world with an agent that fails while answering, and with a
    model handle that cannot be made. *)
Definition demo_chat_fails : External :=
  {| load_dotenv := load_dotenv demo;
     new_GoogleGenAI := new_GoogleGenAI demo;
     new_ReActAgent := new_ReActAgent demo;
     chat := fun _ =>
       ([Invoke (call_search_wikipedia "Alan Turing")],
        Raised (OtherException "quota exceeded"));
     str_response := str_response demo;
     internals := internals demo |}.

Definition demo_model_fails : External :=
  {| load_dotenv := load_dotenv demo;
     new_GoogleGenAI := fun _ _ => Raised (ValueError "unknown model");
     new_ReActAgent := new_ReActAgent demo;
     chat := chat demo;
     str_response := str_response demo;
     internals := internals demo |}.

(** A [.env] file that sets the key to nothing. *)
Definition demo_empty_key : External :=
  {| load_dotenv := fun env => <[ "GOOGLE_API_KEY" := "" ]> env;
     new_GoogleGenAI := new_GoogleGenAI demo;
     new_ReActAgent := new_ReActAgent demo;
     chat := chat demo;
     str_response := str_response demo;
     internals := internals demo |}.

(** * Properties *)

(** ** Strings *)

Module PyStrFacts.

Lemma lower_char_idem (c : ascii) : lower_char (lower_char c) = lower_char c.
Proof. destruct c as [[] [] [] [] [] [] [] []]; reflexivity. Qed.

Lemma lower_idem (s : string) : lower (lower s) = lower s.
Proof.
  induction s as [|c s IH]; simpl; [reflexivity|].
  now rewrite lower_char_idem, IH.
Qed.

Lemma lower_app (s t : string) : lower (s ++ t) = lower s ++ lower t.
Proof. induction s as [|c s IH]; simpl; [reflexivity | now rewrite IH]. Qed.

Lemma prefix_split (p s : string) :
  String.prefix p s = true <-> exists post, s = p ++ post.
Proof.
  revert s; induction p as [|a p IH]; intros s.
  - split; [intros _; exists s; reflexivity | intros _; now destruct s].
  - destruct s as [|b s]; simpl.
    + split; [discriminate | intros [post H]; discriminate].
    + destruct (ascii_dec a b) as [->|Hne].
      * rewrite IH. split; intros [post H]; exists post.
        -- now rewrite H.
        -- now inversion H.
      * split; [discriminate | intros [post H]; inversion H; congruence].
Qed.

Lemma contains_nil (needle : string) :
  contains needle "" = String.prefix needle "" || false.
Proof. reflexivity. Qed.

Lemma contains_cons (needle : string) (b : ascii) (hay : string) :
  contains needle (String b hay) =
  String.prefix needle (String b hay) || contains needle hay.
Proof. reflexivity. Qed.

Lemma contains_iff (needle hay : string) :
  contains needle hay = true <-> Contains needle hay.
Proof.
  unfold Contains. induction hay as [|b hay IH].
  - rewrite contains_nil, orb_false_r, prefix_split. split.
    + intros [post H]. exists "", post. exact H.
    + intros [[|c pre] [post H]]; [now exists post | discriminate].
  - rewrite contains_cons, orb_true_iff, prefix_split, IH. split.
    + intros [[post H] | (pre & post & H)].
      * exists "", post. exact H.
      * exists (String b pre), post.
        change (String b hay = String b (pre ++ needle ++ post)).
        now rewrite H.
    + intros [[|c pre] [post H]].
      * left. now exists post.
      * right. exists pre, post. now inversion H.
Qed.

Lemma not_contains_iff (needle hay : string) :
  contains needle hay = false <-> ~ Contains needle hay.
Proof.
  rewrite <- contains_iff. destruct (contains needle hay); split; intros H;
    try reflexivity; try discriminate; try (intros H'; discriminate).
  now contradiction H.
Qed.

End PyStrFacts.

(** ** Matching without regard to case *)

Module MatchFacts.
Import PyStrFacts.

Lemma lower_split (q x y : string) :
  lower q = x ++ y ->
  exists q1 q2, q = q1 ++ q2 /\ lower q1 = x /\ lower q2 = y.
Proof.
  revert q; induction x as [|c x IH]; intros q H.
  - exists "", q. repeat split. exact H.
  - destruct q as [|d q]; [discriminate|].
    change (String (lower_char d) (lower q) = String c (x ++ y)) in H.
    injection H as Hc Hq.
    destruct (IH q Hq) as (q1 & q2 & -> & H1 & H2).
    exists (String d q1), q2. repeat split; [|exact H2].
    change (String (lower_char d) (lower q1) = String c x). congruence.
Qed.

Lemma occurs_iff (key query : string) :
  occurs_ignoring_case key query <->
  contains (lower key) (lower query) = true.
Proof.
  rewrite contains_iff. unfold occurs_ignoring_case, Contains. split.
  - intros (pre & mid & post & -> & Hmid).
    exists (lower pre), (lower post).
    now rewrite !lower_app, Hmid.
  - intros (a & b & H).
    destruct (lower_split _ _ _ H) as (q1 & q2 & -> & _ & H2).
    destruct (lower_split _ _ _ H2) as (m & p & -> & Hm & _).
    now exists q1, m, p.
Qed.

(** For the keys of the script, which are lowercase already, this is the
    test the script makes. *)
Lemma no_key_occurs_iff (query : string) :
  no_key_occurs query <->
  contains "alan turing" (lower query) = false /\
  contains "llama" (lower query) = false /\
  contains "react agent" (lower query) = false.
Proof.
  unfold no_key_occurs, keys.
  rewrite !Forall_cons, Forall_nil, !occurs_iff.
  change (lower "alan turing") with "alan turing".
  change (lower "llama") with "llama".
  change (lower "react agent") with "react agent".
  rewrite !not_true_iff_false. tauto.
Qed.

End MatchFacts.

(** ** Running statements *)

Module IOFacts.

Lemma wrote_nil (w : World) : wrote [] w = w.
Proof. destruct w. unfold wrote. cbn. now rewrite app_nil_r. Qed.

Lemma wrote_wrote (a b : list line) (w : World) :
  wrote b (wrote a w) = wrote (a ++ b) w.
Proof. unfold wrote. cbn. now rewrite app_assoc. Qed.

Lemma bind_run {A B : Type} (m : IO A) (k : A -> IO B) (w : World) :
  (m ≫= k) w =
  match m w with
  | (w', Returned a) => k a w'
  | (w', Raised e) => (w', Raised e)
  end.
Proof. reflexivity. Qed.

End IOFacts.

(** Proof steps: open up the monad; split on what a probed expression did. *)
Ltac unfold_bind := unfold mbind, IO_bind, mret, IO_ret.

Ltac split_outcomes :=
  repeat match goal with
  | |- context [match ?o with Returned _ => _ | Raised _ => _ end] =>
      destruct o as [?|[?|?|?|?|?]]; cbn
  end.

(** ** Runs that do not depend on the world *)

Module RunFacts.

Lemma grow_nil (w : World) : called [] (wrote [] w) = w.
Proof. destruct w. unfold called, wrote. cbn. now rewrite !app_nil_r. Qed.

Lemma grow_grow (o1 o2 : list line) (c1 c2 : list call) (w : World) :
  called c2 (wrote o2 (called c1 (wrote o1 w))) =
  called (c1 ++ c2) (wrote (o1 ++ o2) w).
Proof. unfold called, wrote. cbn. now rewrite !app_assoc. Qed.

Lemma behaves_ret {A : Type} (a : A) : behaves (mret a) [] [] (Returned a).
Proof. intros w. now rewrite grow_nil. Qed.

Lemma behaves_raise {A : Type} (e : exn) : behaves (@raise A e) [] [] (Raised e).
Proof. intros w. now rewrite grow_nil. Qed.

Lemma behaves_perform {A : Type} (o : outcome A) : behaves (perform o) [] [] o.
Proof. intros w. now rewrite grow_nil. Qed.

Lemma behaves_print (l : line) : behaves (print l) [l] [] (Returned tt).
Proof. intros [env out cs]. unfold print, called, wrote. cbn. now rewrite app_nil_r. Qed.

Lemma behaves_log_call (c : call) : behaves (log_call c) [] [c] (Returned tt).
Proof. intros [env out cs]. unfold log_call, called, wrote. cbn. now rewrite app_nil_r. Qed.

Lemma behaves_bind {A B : Type} (m : IO A) (k : A -> IO B) a o1 c1 o2 c2 r :
  behaves m o1 c1 (Returned a) -> behaves (k a) o2 c2 r ->
  behaves (m ≫= k) (o1 ++ o2) (c1 ++ c2) r.
Proof.
  intros Hm Hk w. rewrite IOFacts.bind_run, Hm, Hk. now rewrite grow_grow.
Qed.

Lemma behaves_bind_raised {A B : Type} (m : IO A) (k : A -> IO B) e o c :
  behaves m o c (Raised e) -> behaves (m ≫= k) o c (Raised e).
Proof. intros Hm w. now rewrite IOFacts.bind_run, Hm. Qed.

Lemma behaves_try_returned {A : Type} (m : IO A) (cl : exn -> option (IO A)) a o c :
  behaves m o c (Returned a) -> behaves (try_except m cl) o c (Returned a).
Proof. intros Hm w. unfold try_except. now rewrite Hm. Qed.

Lemma behaves_try_caught {A : Type} (m : IO A) (cl : exn -> option (IO A))
    e h o1 c1 o2 c2 r :
  behaves m o1 c1 (Raised e) -> cl e = Some h -> behaves h o2 c2 r ->
  behaves (try_except m cl) (o1 ++ o2) (c1 ++ c2) r.
Proof.
  intros Hm He Hh w. unfold try_except. rewrite Hm, He, Hh. now rewrite grow_grow.
Qed.

Lemma behaves_try_passed {A : Type} (m : IO A) (cl : exn -> option (IO A)) e o c :
  behaves m o c (Raised e) -> cl e = None ->
  behaves (try_except m cl) o c (Raised e).
Proof. intros Hm He w. unfold try_except. now rewrite Hm, He. Qed.

Lemma behaves_delivered {A : Type} (m : IO A) o c r :
  behaves m o c r -> behaves (delivered m) o c (Returned tt).
Proof. intros Hm w. unfold delivered. now rewrite Hm. Qed.

(** What [behaves] names is what a fresh world shows. *)
Lemma behaves_fresh {A : Type} (m : IO A) o c r :
  behaves m o c r ->
  printed_by m = o /\ calls_by m = c /\ result m (fresh ∅) = r.
Proof.
  intros H. unfold printed_by, calls_by, result, after. now rewrite H.
Qed.

Lemma blind_result {A : Type} (m : IO A) (w w' : World) :
  world_blind m -> result m w = result m w'.
Proof. intros (o & c & r & H). unfold result. now rewrite !H. Qed.

Lemma blind_bind {A B : Type} (m : IO A) (k : A -> IO B) :
  world_blind m -> (forall a, world_blind (k a)) -> world_blind (m ≫= k).
Proof.
  intros (o1 & c1 & [a|e] & Hm) Hk.
  - destruct (Hk a) as (o2 & c2 & r & Ha).
    exists (o1 ++ o2)%list, (c1 ++ c2)%list, r. now apply behaves_bind with a.
  - exists o1, c1, (Raised e). now apply behaves_bind_raised.
Qed.

Lemma blind_try {A : Type} (m : IO A) (cl : exn -> option (IO A)) :
  world_blind m -> (forall e h, cl e = Some h -> world_blind h) ->
  world_blind (try_except m cl).
Proof.
  intros (o1 & c1 & [a|e] & Hm) Hcl.
  - exists o1, c1, (Returned a). now apply behaves_try_returned.
  - destruct (cl e) as [h|] eqn:He.
    + destruct (Hcl e h He) as (o2 & c2 & r & Hh).
      exists (o1 ++ o2)%list, (c1 ++ c2)%list, r.
      now apply behaves_try_caught with e h.
    + exists o1, c1, (Raised e). now apply behaves_try_passed.
Qed.

Lemma blind_delivered {A : Type} (m : IO A) :
  world_blind m -> world_blind (delivered m).
Proof.
  intros (o & c & r & H). exists o, c, (Returned tt).
  now apply behaves_delivered with r.
Qed.

Lemma blind_ret {A : Type} (a : A) : world_blind (mret a).
Proof. eexists _, _, _. apply behaves_ret. Qed.

Lemma blind_raise {A : Type} (e : exn) : world_blind (@raise A e).
Proof. eexists _, _, _. apply behaves_raise. Qed.

Lemma blind_perform {A : Type} (o : outcome A) : world_blind (perform o).
Proof. eexists _, _, _. apply behaves_perform. Qed.

Lemma blind_print (l : line) : world_blind (print l).
Proof. eexists _, _, _. apply behaves_print. Qed.

Lemma blind_log_call (c : call) : world_blind (log_call c).
Proof. eexists _, _, _. apply behaves_log_call. Qed.

Lemma blind_hasattr (lookup : outcome unit) : world_blind (hasattr lookup).
Proof.
  destruct lookup as [?|[?|?|?|?|?]]; cbn;
    first [apply blind_ret | apply blind_raise].
Qed.

End RunFacts.

Create HintDb blind.

#[local] Hint Resolve RunFacts.blind_ret RunFacts.blind_raise
  RunFacts.blind_perform RunFacts.blind_print RunFacts.blind_log_call
  RunFacts.blind_hasattr : blind.

(** Take a run apart statement by statement. *)
Ltac blind :=
  repeat first
    [ solve [auto with blind]
    | apply RunFacts.blind_bind; [| intros ?]
    | apply RunFacts.blind_delivered
    | match goal with
      | |- world_blind (if ?b then _ else _) => destruct b
      | |- world_blind (match ?x with _ => _ end) => destruct x
      end ].

(** ** The tools, run *)

(** A number tool formats its operands, prints, and computes: it raises
    before printing when an operand does not format, and otherwise prints
    its line and ends as the operation does. *)
Lemma multiply_run (a b : number) :
  exists l,
    behaves (multiply a b)
      (if printable a && printable b then [l] else []) []
      (if printable a && printable b then py_mul a b
       else Raised (ValueError int_str_limit_message)).
Proof.
  eexists. intros [env out cs].
  unfold multiply, py_format, perform, print, called, wrote. unfold_bind.
  destruct (printable a), (printable b); cbn; rewrite ?app_nil_r;
    reflexivity.
Qed.

Lemma add_run (a b : number) :
  exists l,
    behaves (add a b)
      (if printable a && printable b then [l] else []) []
      (if printable a && printable b then py_add a b
       else Raised (ValueError int_str_limit_message)).
Proof.
  eexists. intros [env out cs].
  unfold add, py_format, perform, print, called, wrote. unfold_bind.
  destruct (printable a), (printable b); cbn; rewrite ?app_nil_r;
    reflexivity.
Qed.

Lemma search_wikipedia_run (query : string) :
  exists l v, behaves (search_wikipedia query) [l] [] (Returned v).
Proof.
  unfold search_wikipedia.
  repeat match goal with |- context [if ?c then _ else _] => destruct c end;
    eexists _, _; intros [env out cs]; unfold print, called, wrote;
    unfold_bind; cbn; rewrite ?app_nil_r; reflexivity.
Qed.

Lemma logged_delivery {A : Type} (f : pyfn) (tool : IO A) out r :
  behaves tool out [] r ->
  behaves (log_call (tool_invocation f);; delivered tool)
    out [tool_invocation f] (Returned tt).
Proof.
  intros H.
  exact (RunFacts.behaves_bind _ _ _ _ _ _ _ _
           (RunFacts.behaves_log_call _) (RunFacts.behaves_delivered _ _ _ _ H)).
Qed.

Lemma invoke_behaves (c : tool_call) :
  exists out f, behaves (invoke c) out [tool_invocation f] (Returned tt).
Proof.
  destruct c as [a b|a b|q]; cbn [invoke].
  - destruct (multiply_run a b) as (l & H). eexists _, _. exact (logged_delivery _ _ _ _ H).
  - destruct (add_run a b) as (l & H). eexists _, _. exact (logged_delivery _ _ _ _ H).
  - destruct (search_wikipedia_run q) as (l & v & H).
    eexists _, _. exact (logged_delivery _ _ _ _ H).
Qed.

Lemma run_steps_returns (steps : list agent_step) :
  exists out cs, behaves (run_steps steps) out cs (Returned tt).
Proof.
  induction steps as [|[c|l] steps (out & cs & IH)].
  - eexists _, _. apply RunFacts.behaves_ret.
  - destruct (invoke_behaves c) as (l & f & Hc).
    eexists _, _. cbn [run_steps]. eapply RunFacts.behaves_bind; [exact Hc | exact IH].
  - eexists _, _. cbn [run_steps].
    eapply RunFacts.behaves_bind; [apply RunFacts.behaves_print | exact IH].
Qed.

Lemma run_steps_behaves (steps : list agent_step) :
  behaves (run_steps steps) (printed_by (run_steps steps))
    (calls_by (run_steps steps)) (Returned tt).
Proof.
  destruct (run_steps_returns steps) as (out & cs & H).
  destruct (RunFacts.behaves_fresh _ _ _ _ H) as (-> & -> & _). exact H.
Qed.

Lemma run_steps_blind (steps : list agent_step) : world_blind (run_steps steps).
Proof. eexists _, _, _. apply run_steps_behaves. Qed.

Lemma probe_blind (i : Internals) : world_blind (probe i).
Proof. unfold probe. blind. Qed.

(** The clauses take exactly the instances of [Exception], print what
    [reported] lists, and return. *)
Lemma except_clauses_run (e : exn) :
  if is_Exception e
  then exists h, except_clauses e = Some h /\
                 behaves h (reported e) [] (Returned tt)
  else except_clauses e = None.
Proof.
  destruct e; cbn; try reflexivity; eexists; (split; [reflexivity |]);
    intros [env out cs]; unfold print, called, wrote; unfold_bind; cbn;
    rewrite ?app_nil_r, <- ?app_assoc; reflexivity.
Qed.

Lemma introspection_blind (i : Internals) : world_blind (introspection i).
Proof.
  unfold introspection. apply RunFacts.blind_try; [apply probe_blind |].
  intros e h He. pose proof (except_clauses_run e) as H.
  destruct (is_Exception e).
  - destruct H as (h' & Hh & B). rewrite He in Hh. injection Hh as <-.
    eexists _, _, _. exact B.
  - congruence.
Qed.

#[local] Hint Resolve run_steps_blind introspection_blind : blind.

(** ** search_wikipedia *)

(** C4: [search_wikipedia] returns, for "Alan Turing", a text containing
    "British mathematician"; for "llama", one containing "camelid"; for
    "react agent", one containing "Reasoning and Acting". *)
Theorem search_wikipedia_known_entries (w : World) :
  (exists s, result (search_wikipedia "Alan Turing") w = Returned s /\
             Contains "British mathematician" s) /\
  (exists s, result (search_wikipedia "llama") w = Returned s /\
             Contains "camelid" s) /\
  (exists s, result (search_wikipedia "react agent") w = Returned s /\
             Contains "Reasoning and Acting" s).
Proof.
  repeat split; eexists; (split; [reflexivity |]);
    apply PyStrFacts.contains_iff; vm_compute; reflexivity.
Qed.

(** What [search_wikipedia] returns, in terms of its three tests. *)
Lemma search_wikipedia_result (query : string) (w : World) :
  result (search_wikipedia query) w =
  Returned
    (if contains "alan turing" (lower query) then alan_turing_text
     else if contains "llama" (lower query) then llama_text
     else if contains "react agent" (lower query) then react_agent_text
     else not_found_text (lower query)).
Proof.
  unfold result, search_wikipedia. cbn.
  destruct (contains "alan turing" (lower query)); [reflexivity|].
  destruct (contains "llama" (lower query)); [reflexivity|].
  destruct (contains "react agent" (lower query)); reflexivity.
Qed.

(** C1, as the code has it: when none of the three keys occurs in the query
    up to case, [search_wikipedia] returns the not-found message built
    around the lowercased query; the message contains that lowercased text
    (which is the caller's text when the caller's text is lowercase
    already) and opens with the words saying nothing was found. *)
Theorem search_wikipedia_not_found (query : string) (w : World) :
  no_key_occurs query ->
  exists message,
    result (search_wikipedia query) w = Returned message /\
    message = not_found_text (lower query) /\
    Contains (lower query) message /\
    (lower query = query -> Contains query message) /\
    String.prefix "Couldn't find information about" message = true.
Proof.
  intros H. apply MatchFacts.no_key_occurs_iff in H as (H1 & H2 & H3).
  assert (C : Contains (lower query) (not_found_text (lower query))).
  { eexists _, _. reflexivity. }
  rewrite search_wikipedia_result, H1, H2, H3.
  eexists. split; [reflexivity |]. split; [reflexivity |].
  split; [exact C |]. split; [| reflexivity].
  intros E. destruct C as (pre & post & C). exists pre, post.
  now rewrite C, E.
Qed.

Lemma search_wikipedia_not_found_witness :
  no_key_occurs "Grace Hopper" /\
  result (search_wikipedia "Grace Hopper") (fresh ∅) =
    Returned "Couldn't find information about 'grace hopper' on Fake Wikipedia.".
Proof.
  assert (H : no_key_occurs "Grace Hopper").
  { apply MatchFacts.no_key_occurs_iff. repeat split; vm_compute; reflexivity. }
  split; [exact H |].
  destruct (search_wikipedia_not_found "Grace Hopper" (fresh ∅) H)
    as (message & Hr & -> & _).
  exact Hr.
Defined.

(** C1, as stated, fails: "Foo" matches no key, and the message returned
    for it does not contain "Foo". *)
Lemma search_wikipedia_not_literal :
  no_key_occurs "Foo" /\
  result (search_wikipedia "Foo") (fresh ∅) =
    Returned "Couldn't find information about 'foo' on Fake Wikipedia." /\
  ~ Contains "Foo" "Couldn't find information about 'foo' on Fake Wikipedia.".
Proof.
  split; [|split].
  - apply MatchFacts.no_key_occurs_iff. repeat split; vm_compute; reflexivity.
  - reflexivity.
  - apply PyStrFacts.not_contains_iff. vm_compute. reflexivity.
Qed.

(** C5: for every query, [search_wikipedia] returns the text of the first
    entry of the table, in the order "alan turing", "llama", "react agent",
    whose key is found in the lowercased query (and the not-found message
    when there is none); so of several matching keys the earliest wins. *)
Theorem search_wikipedia_first_match_wins (query : string) (w : World) :
  result (search_wikipedia query) w = Returned (lookup_in_order query) /\
  map fst table = keys.
Proof.
  split; [|reflexivity].
  rewrite search_wikipedia_result.
  unfold lookup_in_order, first_match, table, List.find, fst.
  destruct (contains "alan turing" (lower query)); [reflexivity|].
  destruct (contains "llama" (lower query)); [reflexivity|].
  destruct (contains "react agent" (lower query)); reflexivity.
Qed.

(** A query in which two keys occur gets the entry of the earlier one. *)
Example search_wikipedia_two_keys :
  result (search_wikipedia "Did Alan Turing keep a llama?") (fresh ∅) =
  Returned alan_turing_text.
Proof. reflexivity. Qed.

(** C10: lowercasing the query beforehand does not change what
    [search_wikipedia] returns, the not-found message included, which is
    built around the lowercased query either way. *)
Theorem search_wikipedia_lower_invariant (query : string) (w : World) :
  result (search_wikipedia (lower query)) w = result (search_wikipedia query) w /\
  (no_key_occurs query ->
   result (search_wikipedia (lower query)) w =
     Returned (not_found_text (lower query))).
Proof.
  assert (E : result (search_wikipedia (lower query)) w =
              result (search_wikipedia query) w).
  { now rewrite !search_wikipedia_result, PyStrFacts.lower_idem. }
  split; [exact E |].
  intros H. rewrite E.
  apply MatchFacts.no_key_occurs_iff in H as (H1 & H2 & H3).
  now rewrite search_wikipedia_result, H1, H2, H3.
Qed.

(** ** multiply and add *)

Module NumberFacts.

Lemma limit_unprintable : printable (PyInt int_str_limit) = false.
Proof.
  unfold printable. apply Z.ltb_ge. rewrite Z.abs_eq; [reflexivity |].
  unfold int_str_limit. apply Z.pow_nonneg. lia.
Qed.

Lemma power_of_two_printable : printable (PyInt (2 ^ 1024)) = true.
Proof.
  unfold printable, int_str_limit. apply Z.ltb_lt.
  rewrite Z.abs_eq by (apply Z.pow_nonneg; lia).
  apply Z.lt_le_trans with (10 ^ 1024)%Z.
  - apply Z.pow_lt_mono_l; lia.
  - apply Z.pow_le_mono_r; lia.
Qed.

Lemma power_of_two_overflows :
  float_of_int (2 ^ 1024) =
  Raised (OverflowError "int too large to convert to float").
Proof. vm_compute. reflexivity. Qed.

End NumberFacts.

(** C6, as the code has it: on operands that can be formatted (every
    float, every int of at most 4300 digits) [add a b] returns [a + b]:
    the integer sum of two ints, the binary64 sum of two floats, and for
    an int with a float the binary64 sum after converting the int; when
    that conversion overflows, [a + b] raises and so does [add]. *)
Theorem add_returns_sum (a b : number) (w : World) :
  printable a = true -> printable b = true ->
  match a, b with
  | PyInt x, PyInt y => result (add a b) w = Returned (PyInt (x + y))
  | PyFloat x, PyFloat y => result (add a b) w = Returned (PyFloat (x + y))
  | PyInt x, PyFloat y =>
      match float_of_int x with
      | Returned x' => result (add a b) w = Returned (PyFloat (x' + y))
      | Raised e => result (add a b) w = Raised e
      end
  | PyFloat x, PyInt y =>
      match float_of_int y with
      | Returned y' => result (add a b) w = Returned (PyFloat (x + y'))
      | Raised e => result (add a b) w = Raised e
      end
  end.
Proof.
  intros Ha Hb. destruct (add_run a b) as (l & H).
  unfold result. rewrite H, Ha, Hb. cbn [andb snd].
  destruct a as [x|x], b as [y|y]; unfold py_add, arith; try reflexivity;
    match goal with |- context [float_of_int ?z] => destruct (float_of_int z) end;
    reflexivity.
Qed.

(** The sum the script's question asks for. *)
Lemma add_returns_sum_witness :
  result (add 5%Z 12.5%float) (fresh ∅) = Returned (PyFloat 17.5).
Proof. exact (add_returns_sum 5%Z 12.5%float (fresh ∅) eq_refl eq_refl). Defined.

(** C6, as stated, fails: the sum of [10^4300] and [1] exists, but [add]
    raises on them, while formatting the first operand. *)
Lemma add_huge_int_raises :
  py_add int_str_limit 1%Z = Returned (PyInt (10 ^ 4300 + 1)) /\
  result (add int_str_limit 1%Z) (fresh ∅) =
    Raised (ValueError int_str_limit_message).
Proof.
  split; [reflexivity |].
  destruct (add_run int_str_limit 1%Z) as (l & H).
  unfold result. now rewrite H, NumberFacts.limit_unprintable.
Qed.

(** C7, as the code has it: on operands that can be formatted (every
    float, every int of at most 4300 digits) [multiply a b] returns
    [a * b]: the integer product of two ints, the binary64 product of two
    floats, and for an int with a float the binary64 product after
    converting the int; when that conversion overflows, [a * b] raises and
    so does [multiply]. *)
Theorem multiply_returns_product (a b : number) (w : World) :
  printable a = true -> printable b = true ->
  match a, b with
  | PyInt x, PyInt y => result (multiply a b) w = Returned (PyInt (x * y))
  | PyFloat x, PyFloat y => result (multiply a b) w = Returned (PyFloat (x * y))
  | PyInt x, PyFloat y =>
      match float_of_int x with
      | Returned x' => result (multiply a b) w = Returned (PyFloat (x' * y))
      | Raised e => result (multiply a b) w = Raised e
      end
  | PyFloat x, PyInt y =>
      match float_of_int y with
      | Returned y' => result (multiply a b) w = Returned (PyFloat (x * y'))
      | Raised e => result (multiply a b) w = Raised e
      end
  end.
Proof.
  intros Ha Hb. destruct (multiply_run a b) as (l & H).
  unfold result. rewrite H, Ha, Hb. cbn [andb snd].
  destruct a as [x|x], b as [y|y]; unfold py_mul, arith; try reflexivity;
    match goal with |- context [float_of_int ?z] => destruct (float_of_int z) end;
    reflexivity.
Qed.

(** The product of the commented-out question. *)
Lemma multiply_returns_product_witness :
  result (multiply 3%Z 7%Z) (fresh ∅) = Returned (PyInt 21).
Proof. exact (multiply_returns_product 3%Z 7%Z (fresh ∅) eq_refl eq_refl). Defined.

(** C7, as stated, fails: the product of [10^4300] and [1] exists, but
    [multiply] raises on them, while formatting the first operand. *)
Lemma multiply_huge_int_raises :
  py_mul int_str_limit 1%Z = Returned (PyInt (10 ^ 4300 * 1)) /\
  result (multiply int_str_limit 1%Z) (fresh ∅) =
    Raised (ValueError int_str_limit_message).
Proof.
  split; [reflexivity |].
  destruct (multiply_run int_str_limit 1%Z) as (l & H).
  unfold result. now rewrite H, NumberFacts.limit_unprintable.
Qed.

(** The conversion of an int for arithmetic with a float: exact when it
    can be, rounded to even when not, refused beyond the largest float. *)
Example float_of_int_values :
  float_of_int 5 = Returned 5%float /\
  float_of_int (2 ^ 53 + 1) = Returned 9007199254740992%float /\
  float_of_int (2 ^ 1024 - 2 ^ 970 - 1) = Returned 0x1.fffffffffffffp+1023%float /\
  float_of_int (2 ^ 1024 - 2 ^ 970) =
    Raised (OverflowError "int too large to convert to float").
Proof. repeat split; vm_compute; reflexivity. Qed.

(** ** The tools as effects *)

(** C9, as the code has it: each tool, on given arguments, ends the same
    way from every world (the same value or the same exception), makes no
    call and changes the world by at most its one printed line, which
    comes before any value.  [search_wikipedia] always prints and returns;
    [multiply] and [add] raise before printing when an operand cannot be
    formatted, and otherwise print and end as [*] and [+] do. *)
Theorem tools_deterministic_print_only :
  (forall a b : number,
      exists l,
        behaves (multiply a b)
          (if printable a && printable b then [l] else []) []
          (if printable a && printable b then py_mul a b
           else Raised (ValueError int_str_limit_message))) /\
  (forall a b : number,
      exists l,
        behaves (add a b)
          (if printable a && printable b then [l] else []) []
          (if printable a && printable b then py_add a b
           else Raised (ValueError int_str_limit_message))) /\
  (forall query : string,
      exists l v, behaves (search_wikipedia query) [l] [] (Returned v)).
Proof.
  split; [| split].
  - exact multiply_run.
  - exact add_run.
  - exact search_wikipedia_run.
Qed.

(** C9, as stated, fails: [add] on [1] and [10^4300] prints nothing and
    returns no value, and [multiply] on [2^1024] and [2.0] prints its line
    and then raises instead of returning. *)
Lemma tools_need_not_return :
  add 1%Z int_str_limit (fresh ∅) =
    (fresh ∅, Raised (ValueError int_str_limit_message)) /\
  multiply (2 ^ 1024)%Z 2%float (fresh ∅) =
    (wrote [[Text "--- Calling Multiply Tool with: a="; IntRepr (2 ^ 1024);
             Text ", b="; FloatRepr 2; Text " ---"]] (fresh ∅),
     Raised (OverflowError "int too large to convert to float")).
Proof.
  split.
  - destruct (add_run 1%Z int_str_limit) as (l & H).
    rewrite H, NumberFacts.limit_unprintable, andb_false_r. reflexivity.
  - unfold multiply, py_format.
    rewrite NumberFacts.power_of_two_printable. unfold py_mul, arith.
    rewrite NumberFacts.power_of_two_overflows. reflexivity.
Qed.

(** ** The registry *)

(** C8: the three tools the script registers have pairwise different
    names. *)
Theorem tool_names_unique (w : World) :
  exists tools,
    result build_tools w = Returned tools /\
    map name tools = ["multiply_numbers"; "add_numbers"; "wikipedia_search"] /\
    NoDup (map name tools).
Proof.
  eexists. split; [reflexivity|]. split; [reflexivity|].
  cbn. apply (bool_decide_unpack _). vm_compute. reflexivity.
Qed.

(** ** Start-up *)

(** C2: when [GOOGLE_API_KEY] is absent from the environment the script
    reads (the process environment after [load_dotenv]), the script raises
    the [ValueError] at once: nothing has been printed, so no tool has
    run, and no call into the agent library has been made, so no tool,
    model handle or agent has been constructed. *)
Theorem missing_key_halts (ext : External) (w : World) :
  load_dotenv ext (environ w) !! "GOOGLE_API_KEY" = None ->
  script ext w =
    ({| environ := load_dotenv ext (environ w);
        stdout := stdout w; calls := calls w |},
     Raised (ValueError missing_key_message)).
Proof.
  intros H.
  unfold script, driver, configuration, run_load_dotenv, os_getenv.
  unfold_bind. cbn. rewrite H. reflexivity.
Qed.

Lemma missing_key_halts_witness :
  script demo (fresh ∅) = (fresh ∅, Raised (ValueError missing_key_message)).
Proof. apply (missing_key_halts demo (fresh ∅)). reflexivity. Defined.

(** The empty string counts as missing too ([if not google_api_key]). *)
Lemma empty_key_halts (ext : External) (w : World) :
  load_dotenv ext (environ w) !! "GOOGLE_API_KEY" = Some "" ->
  result (script ext) w = Raised (ValueError missing_key_message).
Proof.
  intros H.
  unfold result, script, driver, configuration, run_load_dotenv, os_getenv.
  unfold_bind. cbn. rewrite H. reflexivity.
Qed.

(** With the key set, the demo run goes through to the end: the two tools
    print when called, and the last block reports what it did not find. *)
Example demo_run :
  let w := script demo (fresh {[ "GOOGLE_API_KEY" := "secret" ]}) in
  snd w = Returned tt /\
  stdout (fst w) =
    [ [Text "--- Starting Agent ---"];
      [Text "--- Calling Wikipedia Tool with query: "; Text "Alan Turing"; Text " ---"];
      [Text "--- Calling Add Tool with: a="; IntRepr 5; Text ", b=";
       FloatRepr 12.5; Text " ---"];
      [Text (nl ++ "--- Final Answer ---")];
      [Text "17.5"];
      [Text (nl ++ "--- Agent Finished ---")];
      [Text "Could not find '_react_chat_formatter' or 'get_system_prompt' on the agent worker."];
      [Text "Agent's internal structure might differ based on LlamaIndex version."];
      [Text "Try inspecting agent_worker attributes:"; Text " "; Text "['chat']"] ] /\
  calls (fst w) =
    [ FunctionTool_from_defaults fn_multiply "multiply_numbers";
      FunctionTool_from_defaults fn_add "add_numbers";
      FunctionTool_from_defaults fn_search_wikipedia "wikipedia_search";
      GoogleGenAI "gemini-2.0-flash-lite" "secret";
      ReActAgent_from_tools
        [ {| fn := fn_multiply; name := "multiply_numbers" |};
          {| fn := fn_add; name := "add_numbers" |};
          {| fn := fn_search_wikipedia; name := "wikipedia_search" |} ] true;
      agent_chat question;
      tool_invocation fn_search_wikipedia;
      tool_invocation fn_add ].
Proof. vm_compute. repeat split. Qed.

(** ** The last block *)

(** The [try] body only prints, and prints something whenever it gets to
    its end. *)
Lemma probe_only_prints (i : Internals) (w : World) :
  exists out,
    after (probe i) w = wrote out w /\
    (result (probe i) w = Returned tt -> out <> []).
Proof.
  destruct w as [env out0 cs], i.
  unfold probe, after, result, hasattr, perform, raise, print, wrote.
  unfold_bind. cbn. split_outcomes.
  all: rewrite <- ?app_assoc.
  all: try (exists []; split; [now rewrite app_nil_r | discriminate]).
  all: eexists; (split; [reflexivity | discriminate]).
Qed.

(** The block as a whole: what the body printed, then, for an exception
    the clauses take, what they print; any other exception goes on. *)
Lemma introspection_total (i : Internals) (w : World) :
  exists before,
    after (probe i) w = wrote before w /\
    match result (probe i) w with
    | Returned _ =>
        introspection i w = (wrote before w, Returned tt) /\ before <> []
    | Raised e =>
        if is_Exception e
        then introspection i w = (wrote (before ++ reported e) w, Returned tt)
        else introspection i w = (wrote before w, Raised e)
    end.
Proof.
  destruct (probe_only_prints i w) as (before & Hw & Hne).
  exists before. split; [exact Hw |].
  unfold introspection, try_except, after, result in *.
  destruct (probe i w) as [w' [[]|e]]; cbn in *; subst w'.
  - split; [reflexivity | now apply Hne].
  - pose proof (except_clauses_run e) as H. destruct (is_Exception e).
    + destruct H as (h & -> & B). rewrite B.
      destruct w; unfold called, wrote; cbn. now rewrite app_nil_r, app_assoc.
    + now rewrite H.
Qed.





(** * Further properties *)

(** ** More on strings *)

Module AppendFacts.

Lemma append_assoc (a b c : string) : (a ++ b) ++ c = a ++ b ++ c.
Proof.
  induction a as [|x a IH]; [reflexivity |].
  change (String x ((a ++ b) ++ c) = String x (a ++ b ++ c)). now rewrite IH.
Qed.

Lemma length_append (a b : string) :
  String.length (a ++ b) = String.length a + String.length b.
Proof.
  induction a as [|x a IH]; [reflexivity |].
  change (S (String.length (a ++ b)) = S (String.length a + String.length b)).
  now rewrite IH.
Qed.

Lemma append_inv_head (p a b : string) : p ++ a = p ++ b -> a = b.
Proof.
  induction p as [|x p IH]; intros H; [exact H |].
  apply IH. now inversion H.
Qed.

Lemma append_inv_tail (s a b : string) : a ++ s = b ++ s -> a = b.
Proof.
  revert b; induction a as [|x a IH]; intros [|y b] H.
  - reflexivity.
  - apply (f_equal String.length) in H.
    change (String.length s = S (String.length (b ++ s))) in H.
    rewrite length_append in H. lia.
  - apply (f_equal String.length) in H.
    change (S (String.length (a ++ s)) = String.length s) in H.
    rewrite length_append in H. lia.
  - inversion H as [[Hxy Hab]]. f_equal. now apply IH.
Qed.

Lemma not_found_text_inj (a b : string) :
  not_found_text a = not_found_text b -> a = b.
Proof.
  unfold not_found_text. intros H.
  apply append_inv_head in H. now apply append_inv_tail in H.
Qed.

(** Text added around a query keeps what occurred in it. *)
Lemma occurs_surrounded (key query pre post : string) :
  occurs_ignoring_case key query ->
  occurs_ignoring_case key (pre ++ query ++ post).
Proof.
  intros (a & mid & b & -> & H).
  exists (pre ++ a), mid, (b ++ post). split; [| exact H].
  now rewrite !append_assoc.
Qed.

End AppendFacts.

Module EntryFacts.

Lemma entries_differ :
  alan_turing_text <> llama_text /\
  alan_turing_text <> react_agent_text /\
  llama_text <> react_agent_text.
Proof. repeat split; discriminate. Qed.

Lemma not_found_is_no_entry (q : string) :
  not_found_text q <> alan_turing_text /\
  not_found_text q <> llama_text /\
  not_found_text q <> react_agent_text.
Proof. repeat split; intros H; inversion H. Qed.

Lemma occurs_key_iff (query : string) :
  (occurs_ignoring_case "alan turing" query <->
   contains "alan turing" (lower query) = true) /\
  (occurs_ignoring_case "llama" query <->
   contains "llama" (lower query) = true) /\
  (occurs_ignoring_case "react agent" query <->
   contains "react agent" (lower query) = true).
Proof.
  split; [| split].
  - exact (MatchFacts.occurs_iff "alan turing" query).
  - exact (MatchFacts.occurs_iff "llama" query).
  - exact (MatchFacts.occurs_iff "react agent" query).
Qed.

Lemma not_found_exactly (query : string) (w : World) :
  result (search_wikipedia query) w = Returned (not_found_text (lower query)) <->
  no_key_occurs query.
Proof.
  rewrite MatchFacts.no_key_occurs_iff, search_wikipedia_result.
  destruct (not_found_is_no_entry (lower query)) as (N1 & N2 & N3).
  destruct (contains "alan turing" (lower query)),
           (contains "llama" (lower query)),
           (contains "react agent" (lower query));
    split; try congruence; try tauto; intros (? & ? & ?); congruence.
Qed.

Lemma turing_first (query : string) (w : World) :
  occurs_ignoring_case "alan turing" query ->
  result (search_wikipedia query) w = Returned alan_turing_text.
Proof.
  intros H. apply occurs_key_iff in H.
  now rewrite search_wikipedia_result, H.
Qed.

End EntryFacts.

(** ** More on search_wikipedia *)

(** X14: [search_wikipedia] returns the Alan Turing entry exactly for the
    queries in which "alan turing" occurs up to case; the llama entry
    exactly for those in which "llama" occurs and "alan turing" does not;
    the ReAct entry exactly for those in which "react agent" occurs and
    neither of the other two does. *)
Theorem search_wikipedia_entry_iff (query : string) (w : World) :
  (result (search_wikipedia query) w = Returned alan_turing_text <->
   occurs_ignoring_case "alan turing" query) /\
  (result (search_wikipedia query) w = Returned llama_text <->
   occurs_ignoring_case "llama" query /\
   ~ occurs_ignoring_case "alan turing" query) /\
  (result (search_wikipedia query) w = Returned react_agent_text <->
   occurs_ignoring_case "react agent" query /\
   ~ occurs_ignoring_case "llama" query /\
   ~ occurs_ignoring_case "alan turing" query).
Proof.
  destruct (EntryFacts.occurs_key_iff query) as (-> & -> & ->).
  destruct EntryFacts.entries_differ as (D1 & D2 & D3).
  destruct (EntryFacts.not_found_is_no_entry (lower query)) as (N1 & N2 & N3).
  rewrite search_wikipedia_result.
  destruct (contains "alan turing" (lower query)),
           (contains "llama" (lower query)),
           (contains "react agent" (lower query));
    repeat split; try congruence; try tauto;
    intros; repeat match goal with H : _ /\ _ |- _ => destruct H end;
    congruence.
Qed.

(** X15: [search_wikipedia] returns the not-found message exactly for the
    queries in which none of the three keys occurs up to case, and the
    only not-found message a query can get is the one about its own
    lowercased text. *)
Theorem search_wikipedia_not_found_iff (query : string) (w : World) :
  (result (search_wikipedia query) w = Returned (not_found_text (lower query)) <->
   no_key_occurs query) /\
  (forall text,
      result (search_wikipedia query) w = Returned (not_found_text text) ->
      text = lower query).
Proof.
  split; [apply EntryFacts.not_found_exactly |].
  intros text. rewrite search_wikipedia_result.
  destruct (EntryFacts.not_found_is_no_entry text) as (N1 & N2 & N3).
  destruct (contains "alan turing" (lower query)),
           (contains "llama" (lower query)),
           (contains "react agent" (lower query));
    intros H; try (exfalso; congruence).
  symmetry. apply AppendFacts.not_found_text_inj. congruence.
Qed.

(** X16: two queries that differ only in the case of their letters get
    the same answer. *)
Theorem search_wikipedia_case_blind (q1 q2 : string) (w1 w2 : World) :
  lower q1 = lower q2 ->
  result (search_wikipedia q1) w1 = result (search_wikipedia q2) w2.
Proof. intros H. now rewrite !search_wikipedia_result, H. Qed.

Lemma search_wikipedia_case_blind_witness :
  result (search_wikipedia "What is a LLAMA?") (fresh ∅) =
  result (search_wikipedia "what is a Llama?") (fresh ∅).
Proof.
  apply (search_wikipedia_case_blind "What is a LLAMA?" "what is a Llama?").
  reflexivity.
Defined.

(** X17: text added before and after a query does not lose a match: a
    query in which "alan turing" occurs keeps the Alan Turing entry, and a
    query in which any key occurs never gets the not-found message. *)
Theorem search_wikipedia_surrounded (query pre post : string) (w : World) :
  (occurs_ignoring_case "alan turing" query ->
   result (search_wikipedia (pre ++ query ++ post)) w = Returned alan_turing_text) /\
  (~ no_key_occurs query ->
   result (search_wikipedia (pre ++ query ++ post)) w <>
     Returned (not_found_text (lower (pre ++ query ++ post)))).
Proof.
  split.
  - intros H. apply EntryFacts.turing_first.
    now apply AppendFacts.occurs_surrounded.
  - intros H H'. apply EntryFacts.not_found_exactly in H'.
    apply H. unfold no_key_occurs in *.
    eapply Forall_impl; [exact H' |]. intros key Hk Ho. apply Hk.
    now apply AppendFacts.occurs_surrounded.
Qed.

(** X18: two queries in which no key occurs get the same message exactly
    when they are the same up to the case of their letters. *)
Theorem not_found_messages_distinct (q1 q2 : string) (w1 w2 : World) :
  no_key_occurs q1 -> no_key_occurs q2 ->
  (result (search_wikipedia q1) w1 = result (search_wikipedia q2) w2 <->
   lower q1 = lower q2).
Proof.
  intros H1 H2.
  apply (EntryFacts.not_found_exactly q1 w1) in H1.
  apply (EntryFacts.not_found_exactly q2 w2) in H2.
  rewrite H1, H2. split.
  - intros H. apply AppendFacts.not_found_text_inj. congruence.
  - now intros ->.
Qed.

Lemma not_found_messages_distinct_witness :
  result (search_wikipedia "Grace Hopper") (fresh ∅) =
    result (search_wikipedia "GRACE HOPPER") (fresh ∅) <->
  lower "Grace Hopper" = lower "GRACE HOPPER".
Proof.
  apply (not_found_messages_distinct "Grace Hopper" "GRACE HOPPER");
    apply MatchFacts.no_key_occurs_iff; repeat split; vm_compute; reflexivity.
Defined.

(** X19: searching for an entry that [search_wikipedia] returned gives that
    entry again. *)
Theorem search_wikipedia_answer_is_fixed (query answer : string) (w : World) :
  ~ no_key_occurs query ->
  result (search_wikipedia query) w = Returned answer ->
  result (search_wikipedia answer) w = Returned answer.
Proof.
  intros H. rewrite MatchFacts.no_key_occurs_iff in H.
  rewrite (search_wikipedia_result query).
  destruct (contains "alan turing" (lower query)),
           (contains "llama" (lower query)),
           (contains "react agent" (lower query));
    try (exfalso; apply H; repeat split; reflexivity);
    intros [= <-]; reflexivity.
Qed.

Lemma search_wikipedia_answer_is_fixed_witness :
  result (search_wikipedia llama_text) (fresh ∅) = Returned llama_text.
Proof.
  apply (search_wikipedia_answer_is_fixed "llama" llama_text (fresh ∅)).
  - intros H. apply MatchFacts.no_key_occurs_iff in H as (_ & H & _).
    vm_compute in H. discriminate.
  - reflexivity.
Defined.

(** ** The script from start to end *)

Lemma introspection_no_calls (i : Internals) :
  exists out r, behaves (introspection i) out [] r.
Proof.
  destruct (introspection_blind i) as (out & cs & r & H).
  destruct (introspection_total i (fresh ∅)) as (before & _ & T).
  assert (E : calls (after (introspection i) (fresh ∅)) = []).
  { unfold after.
    destruct (result (probe i) (fresh ∅)) as [[]|e];
      [destruct T as [-> _] | destruct (is_Exception e); rewrite T]; reflexivity. }
  unfold after in E. rewrite H in E. cbn in E. subst cs. now exists out, r.
Qed.


Lemma configuration_run (ext : External) (w : World) :
  configuration ext w =
  (loaded ext w,
   match load_dotenv ext (environ w) !! "GOOGLE_API_KEY" with
   | Some (String c k) => Returned (String c k)
   | _ => Raised (ValueError missing_key_message)
   end).
Proof.
  unfold configuration, run_load_dotenv, os_getenv, loaded. unfold_bind. cbn.
  destruct (load_dotenv ext (environ w) !! "GOOGLE_API_KEY") as [[|c k]|];
    reflexivity.
Qed.

Lemma build_tools_behaves : behaves build_tools [] registration (Returned registry).
Proof.
  intros [env out cs].
  unfold build_tools, from_defaults, log_call, registration, registry, called, wrote.
  unfold_bind. cbn. now rewrite app_nil_r, <- !app_assoc.
Qed.

Lemma run_agent_run (ext : External) (k : string) (tools : list FunctionTool)
    (w : World) :
  run_agent ext k tools w =
  match new_GoogleGenAI ext model_name k with
  | Raised e => (called [GoogleGenAI model_name k] w, Raised e)
  | Returned _ =>
    match new_ReActAgent ext tools true with
    | Raised e =>
        (called [GoogleGenAI model_name k; ReActAgent_from_tools tools true] w,
         Raised e)
    | Returned _ =>
      let steps := run_steps (fst (chat ext question)) in
      let ran :=
        called ([GoogleGenAI model_name k; ReActAgent_from_tools tools true;
                 agent_chat question] ++ calls_by steps)
          (wrote (starting_banner :: printed_by steps) w) in
      match snd (chat ext question) with
      | Raised e => (ran, Raised e)
      | Returned _ =>
        match str_response ext with
        | Raised e => (wrote [final_answer_banner] ran, Raised e)
        | Returned r =>
            (wrote [final_answer_banner; [Text r]; finished_banner] ran,
             Returned tt)
        end
      end
    end
  end.
Proof.
  destruct w as [env out cs].
  unfold run_agent, model_name, starting_banner, final_answer_banner,
    finished_banner, perform, print, log_call, called, wrote.
  unfold_bind. cbn.
  destruct (new_GoogleGenAI ext _ k) as [[]|e]; [|reflexivity].
  destruct (new_ReActAgent ext tools true) as [[]|e];
    [| now rewrite <- ?app_assoc].
  rewrite (run_steps_behaves (fst (chat ext question))).
  unfold called, wrote. cbn.
  destruct (snd (chat ext question)) as [[]|e];
    [| now rewrite <- ?app_assoc].
  destruct (str_response ext) as [r|e]; now rewrite <- ?app_assoc.
Qed.

Lemma script_with_key (ext : External) (w : World) (k : string) :
  load_dotenv ext (environ w) !! "GOOGLE_API_KEY" = Some k -> k <> "" ->
  script ext w =
  (run_agent ext k registry ≫= fun _ => introspection (internals ext))
    (called registration (loaded ext w)).
Proof.
  intros Hk Hne. unfold script, driver.
  destruct k as [|c k]; [contradiction |].
  rewrite (IOFacts.bind_run (configuration ext ≫= _)).
  rewrite (IOFacts.bind_run (configuration ext)), configuration_run, Hk.
  rewrite (IOFacts.bind_run build_tools), build_tools_behaves.
  rewrite IOFacts.wrote_nil.
  rewrite (IOFacts.bind_run (run_agent _ _ _)).
  reflexivity.
Qed.

Lemma script_without_key (ext : External) (w : World) :
  truthy (load_dotenv ext (environ w) !! "GOOGLE_API_KEY") = false ->
  script ext w = (loaded ext w, Raised (ValueError missing_key_message)).
Proof.
  intros H. unfold script, driver.
  rewrite (IOFacts.bind_run (configuration ext ≫= _)).
  rewrite (IOFacts.bind_run (configuration ext)), configuration_run.
  destruct (load_dotenv ext (environ w) !! "GOOGLE_API_KEY") as [[|c k]|];
    [reflexivity | discriminate | reflexivity].
Qed.

Lemma after_key_blind (ext : External) (k : string) :
  world_blind (run_agent ext k registry ≫= fun _ => introspection (internals ext)).
Proof. unfold run_agent. blind. Qed.

(** X1: reading the configuration returns the key exactly when the
    environment left by [load_dotenv] holds a non-empty value for
    [GOOGLE_API_KEY]; apart from what [load_dotenv] does to the environment
    it changes nothing. *)
Theorem configuration_returns_iff (ext : External) (w : World) (k : string) :
  (result (configuration ext) w = Returned k <->
   load_dotenv ext (environ w) !! "GOOGLE_API_KEY" = Some k /\ k <> "") /\
  after (configuration ext) w = loaded ext w.
Proof.
  unfold result, after. rewrite configuration_run. cbn. split; [| reflexivity].
  destruct (load_dotenv ext (environ w) !! "GOOGLE_API_KEY") as [[|c k']|]; split.
  - discriminate.
  - intros [[= <-] H]. contradiction.
  - intros [= <-]. split; [reflexivity | discriminate].
  - now intros [[= <-] _].
  - discriminate.
  - intros [[=] _].
Qed.

(** X2: a key that is set but empty stops the script like a missing one:
    the [ValueError] is raised with nothing printed and no call made. *)
Theorem empty_key_halts_silently (ext : External) (w : World) :
  load_dotenv ext (environ w) !! "GOOGLE_API_KEY" = Some "" ->
  script ext w = (loaded ext w, Raised (ValueError missing_key_message)).
Proof. intros H. apply script_without_key. now rewrite H. Qed.

Lemma empty_key_halts_silently_witness :
  script demo_empty_key (fresh ∅) =
  (fresh {[ "GOOGLE_API_KEY" := "" ]}, Raised (ValueError missing_key_message)).
Proof. apply (empty_key_halts_silently demo_empty_key (fresh ∅)). reflexivity. Defined.



(** X4: an exception raised by [agent.chat] is not caught: the script ends
    with it, having printed the starting banner and what the agent and the
    tools printed until then, and neither the final answer nor anything
    of the last block. *)
Theorem chat_failure_propagates (ext : External) (w : World) (k : string) (e : exn) :
  load_dotenv ext (environ w) !! "GOOGLE_API_KEY" = Some k -> k <> "" ->
  new_GoogleGenAI ext model_name k = Returned tt ->
  new_ReActAgent ext registry true = Returned tt ->
  snd (chat ext question) = Raised e ->
  let steps := run_steps (fst (chat ext question)) in
  script ext w =
  (called (registration ++
           [GoogleGenAI model_name k; ReActAgent_from_tools registry true;
            agent_chat question] ++ calls_by steps)
     (wrote (starting_banner :: printed_by steps) (loaded ext w)),
   Raised e).
Proof.
  intros Hk Hne Hm Ha Hc steps.
  rewrite (script_with_key ext w k Hk Hne).
  rewrite IOFacts.bind_run, run_agent_run, Hm, Ha, Hc. cbv zeta.
  destruct w as [env out cs]. unfold called, wrote, loaded. cbn.
  now rewrite <- ?app_assoc.
Qed.

Lemma chat_failure_propagates_witness :
  result (script demo_chat_fails) (fresh {[ "GOOGLE_API_KEY" := "secret" ]}) =
    Raised (OtherException "quota exceeded") /\
  stdout (after (script demo_chat_fails) (fresh {[ "GOOGLE_API_KEY" := "secret" ]})) =
    [ starting_banner;
      [Text "--- Calling Wikipedia Tool with query: "; Text "Alan Turing"; Text " ---"] ].
Proof.
  unfold result, after.
  rewrite (chat_failure_propagates demo_chat_fails
             (fresh {[ "GOOGLE_API_KEY" := "secret" ]}) "secret"
             (OtherException "quota exceeded"));
    [ split; reflexivity | reflexivity | discriminate
    | reflexivity | reflexivity | reflexivity ].
Defined.



(** X6: when the model handle cannot be made the script ends with that
    exception after the three registrations and that one call: no agent is
    made, the question is not asked and nothing is printed. *)
Theorem model_failure_stops_script (ext : External) (w : World) (k : string) (e : exn) :
  load_dotenv ext (environ w) !! "GOOGLE_API_KEY" = Some k -> k <> "" ->
  new_GoogleGenAI ext model_name k = Raised e ->
  script ext w =
  (called (registration ++ [GoogleGenAI model_name k]) (loaded ext w), Raised e).
Proof.
  intros Hk Hne Hm.
  rewrite (script_with_key ext w k Hk Hne).
  rewrite IOFacts.bind_run, run_agent_run, Hm.
  destruct w as [env out cs]. unfold called, loaded. cbn.
  now rewrite <- ?app_assoc.
Qed.

Lemma model_failure_stops_script_witness :
  script demo_model_fails (fresh {[ "GOOGLE_API_KEY" := "secret" ]}) =
  (called (registration ++ [GoogleGenAI model_name "secret"])
     (fresh {[ "GOOGLE_API_KEY" := "secret" ]}),
   Raised (ValueError "unknown model")).
Proof.
  apply (model_failure_stops_script demo_model_fails
           (fresh {[ "GOOGLE_API_KEY" := "secret" ]}) "secret");
    [ reflexivity | discriminate | reflexivity ].
Defined.

(** X7: whatever happens, the script leaves the environment as
    [load_dotenv] left it, and only adds to what was printed and to the
    calls made. *)
Theorem script_keeps_environment (ext : External) (w : World) :
  environ (after (script ext) w) = load_dotenv ext (environ w) /\
  (exists out, stdout (after (script ext) w) = (stdout w ++ out)%list) /\
  (exists cs, calls (after (script ext) w) = (calls w ++ cs)%list).
Proof.
  unfold after.
  destruct (load_dotenv ext (environ w) !! "GOOGLE_API_KEY") as [[|c k]|] eqn:Hk.
  1, 3: rewrite script_without_key by (now rewrite Hk); cbn;
        repeat split; exists []; now rewrite app_nil_r.
  rewrite (script_with_key ext w (String c k)) by (auto; discriminate).
  destruct (after_key_blind ext (String c k)) as (out & cs & r & H).
  specialize (H (called registration (loaded ext w))).
  unfold IO in *. rewrite H. cbn. repeat split; [now exists out |].
  exists (registration ++ cs)%list. now rewrite app_assoc.
Qed.

(** X8: with a usable key, the three tools are registered first and the
    model handle is then asked for with the key exactly as it was read. *)
Theorem key_reaches_model_unchanged (ext : External) (w : World) (k : string) :
  load_dotenv ext (environ w) !! "GOOGLE_API_KEY" = Some k -> k <> "" ->
  exists cs,
    calls (after (script ext) w) =
    (calls w ++ registration ++ GoogleGenAI model_name k :: cs)%list.
Proof.
  intros Hk Hne. unfold after.
  rewrite (script_with_key ext w k Hk Hne).
  rewrite IOFacts.bind_run, run_agent_run.
  destruct (introspection_no_calls (internals ext)) as (out & ri & H).
  destruct (new_GoogleGenAI ext model_name k) as [[]|e].
  2: { exists []. cbn. now rewrite <- app_assoc. }
  destruct (new_ReActAgent ext registry true) as [[]|e].
  2: { eexists. cbn. rewrite <- app_assoc. reflexivity. }
  cbv zeta.
  destruct (snd (chat ext question)) as [[]|e].
  2: { eexists. cbn. rewrite <- app_assoc. reflexivity. }
  destruct (str_response ext) as [r|e].
  2: { eexists. cbn. rewrite <- app_assoc. reflexivity. }
  rewrite H. eexists. cbn. rewrite app_nil_r, <- app_assoc. reflexivity.
Qed.

Lemma key_reaches_model_unchanged_witness :
  exists cs,
    calls (after (script demo) (fresh {[ "GOOGLE_API_KEY" := "secret" ]})) =
    ([] ++ registration ++ GoogleGenAI model_name "secret" :: cs)%list.
Proof.
  apply (key_reaches_model_unchanged demo
           (fresh {[ "GOOGLE_API_KEY" := "secret" ]}) "secret");
    [ reflexivity | discriminate ].
Defined.

(** ** More on the last block *)

(** Run the block on internals whose relevant answers are known. *)
Ltac run_block :=
  let w := fresh "w" in
  intros w; destruct w as [? ? ?];
  match goal with i : Internals |- _ => destruct i end;
  cbn in *; subst;
  cbv [introspection try_except probe hasattr perform raise print
       except_clauses reported exn_str called wrote mbind mret IO_bind IO_ret
       environ stdout calls];
  cbn;
  cbv [except_clauses reported exn_str print wrote mbind mret IO_bind IO_ret
       environ stdout calls];
  cbn; rewrite ?app_nil_r, <- ?app_assoc; reflexivity.



(** X10: a worker that has neither [_react_chat_formatter] nor
    [get_system_prompt] is not treated as an error: the block prints its
    two explanations and the listing of the worker's attributes, and the
    messages of the two [AttributeError]s are not shown. *)
Theorem missing_attributes_are_no_errors (i : Internals) (m1 m2 listing : string) :
  agent_worker i = Returned tt ->
  probe_react_chat_formatter i = Raised (AttributeError m1) ->
  probe_get_system_prompt i = Raised (AttributeError m2) ->
  dir_agent_worker i = Returned listing ->
  behaves (introspection i)
    [ [Text "Could not find '_react_chat_formatter' or 'get_system_prompt' on the agent worker."];
      [Text "Agent's internal structure might differ based on LlamaIndex version."];
      [Text "Try inspecting agent_worker attributes:"; Text " "; Text listing] ]
    [] (Returned tt).
Proof. intros H1 H2 H3 H4. run_block. Qed.

Lemma missing_attributes_are_no_errors_witness :
  result (introspection bare_internals) (fresh ∅) = Returned tt /\
  length (stdout (after (introspection bare_internals) (fresh ∅))) = 3.
Proof.
  unfold result, after.
  rewrite (missing_attributes_are_no_errors bare_internals
             "no such attribute" "no such attribute" "['chat']"
             eq_refl eq_refl eq_refl eq_refl (fresh ∅)).
  split; reflexivity.
Defined.

(** X11: when the formatter, its header and its description method are
    there, the block prints the prompt and the tool description, each
    between its banner and its rule. *)
Theorem formatter_path_prints_prompt (i : Internals) (prompt description : string) :
  agent_worker i = Returned tt ->
  probe_react_chat_formatter i = Returned tt ->
  react_chat_formatter i = Returned tt ->
  probe_system_header i = Returned tt ->
  system_header i = Returned tt ->
  str_system_header i = Returned prompt ->
  probe_get_tool_description i = Returned tt ->
  get_tool_description i = Returned tt ->
  str_tool_description i = Returned description ->
  behaves (introspection i)
    [ [Text (nl ++ "--- System Prompt ---")];
      [Text prompt];
      [Text ("---------------------" ++ nl)];
      [Text (nl ++ "--- Generated Tool Description (Part of Prompt) ---")];
      [Text description];
      [Text ("----------------------------------------------------" ++ nl)] ]
    [] (Returned tt).
Proof. intros. run_block. Qed.

Lemma formatter_path_prints_prompt_witness :
  length (stdout (after (introspection full_internals) (fresh ∅))) = 6.
Proof.
  unfold after.
  rewrite (formatter_path_prints_prompt full_internals
             "You are designed to help." "> Tool Name: add_numbers"
             eq_refl eq_refl eq_refl eq_refl eq_refl eq_refl eq_refl eq_refl
             eq_refl (fresh ∅)).
  reflexivity.
Defined.

(** X12: [get_system_prompt] is tried only when there is no
    [_react_chat_formatter]: once the formatter is found, what the worker
    answers about [get_system_prompt] and its own attributes makes no
    difference. *)
Theorem formatter_found_ignores_get_system_prompt (i : Internals)
    (probed called_ : outcome unit) (text listing : outcome string) (w : World) :
  probe_react_chat_formatter i = Returned tt ->
  introspection (with_get_system_prompt i probed called_ text listing) w =
  introspection i w.
Proof.
  intros H. destruct i. cbn in H. subst.
  unfold with_get_system_prompt, introspection, try_except, probe. cbn.
  reflexivity.
Qed.

Lemma formatter_found_ignores_get_system_prompt_witness :
  introspection
    (with_get_system_prompt full_internals (Returned tt) (Returned tt)
       (Returned "another prompt") (Returned "[]")) (fresh ∅) =
  introspection full_internals (fresh ∅).
Proof.
  apply (formatter_found_ignores_get_system_prompt full_internals). reflexivity.
Defined.



(** X22: an exception outside [Exception] raised while the block probes is
    taken by neither clause: it leaves the block with nothing printed
    after what the [try] body had printed, and a script whose earlier
    lines all returned ends with it. *)
Theorem system_exiting_escapes_block (ext : External) (w : World) (msg : string) :
  result (probe (internals ext)) w = Raised (SystemExiting msg) ->
  introspection (internals ext) w =
    (after (probe (internals ext)) w, Raised (SystemExiting msg)) /\
  (result (driver ext) w = Returned tt ->
   result (script ext) w = Raised (SystemExiting msg)).
Proof.
  intros H. split.
  - destruct (introspection_total (internals ext) w) as (before & Hb & T).
    rewrite H in T. cbn in T. now rewrite T, Hb.
  - unfold script, result. rewrite IOFacts.bind_run.
    destruct (driver ext w) as [w' [[]|e]]; [| discriminate]. intros _.
    destruct (introspection_total (internals ext) w') as (before & _ & T).
    rewrite (RunFacts.blind_result _ w' w (probe_blind _)), H in T.
    cbn in T. now rewrite T.
Qed.

Lemma system_exiting_escapes_block_witness :
  result (script demo_interrupted) (fresh {[ "GOOGLE_API_KEY" := "secret" ]}) =
  Raised (SystemExiting "KeyboardInterrupt").
Proof.
  apply (system_exiting_escapes_block demo_interrupted
           (fresh {[ "GOOGLE_API_KEY" := "secret" ]}) "KeyboardInterrupt");
    reflexivity.
Defined.

(** ** Order of the operands *)

Module FloatFacts.

Lemma SFadd_comm (prec emax : Z) (x y : spec_float) :
  SFadd prec emax x y = SFadd prec emax y x.
Proof.
  destruct x as [sx|sx| |sx mx ex], y as [sy|sy| |sy my ey]; try reflexivity;
    try (destruct sx, sy; reflexivity).
  unfold SFadd. rewrite (Z.min_comm ey ex). f_equal. apply Z.add_comm.
Qed.

Lemma SFmul_comm (prec emax : Z) (x y : spec_float) :
  SFmul prec emax x y = SFmul prec emax y x.
Proof.
  destruct x as [sx|sx| |sx mx ex], y as [sy|sy| |sy my ey]; try reflexivity;
    unfold SFmul; rewrite ?(xorb_comm sy sx); try reflexivity.
  now rewrite (Pos.mul_comm my mx), (Z.add_comm ey ex).
Qed.

Lemma add_comm (x y : float) : (x + y)%float = (y + x)%float.
Proof. apply Prim2SF_inj. rewrite !add_spec. apply SFadd_comm. Qed.

Lemma mul_comm (x y : float) : (x * y)%float = (y * x)%float.
Proof. apply Prim2SF_inj. rewrite !mul_spec. apply SFmul_comm. Qed.

Lemma arith_comm (int_op : Z -> Z -> Z) (float_op : float -> float -> float)
    (a b : number) :
  (forall x y, int_op x y = int_op y x) ->
  (forall x y, float_op x y = float_op y x) ->
  arith int_op float_op a b = arith int_op float_op b a.
Proof.
  intros Hi Hf. destruct a as [x|x], b as [y|y]; unfold arith.
  - now rewrite Hi.
  - destruct (float_of_int x); [now rewrite Hf | reflexivity].
  - destruct (float_of_int y); [now rewrite Hf | reflexivity].
  - now rewrite Hf.
Qed.

End FloatFacts.

Lemma add_either_order (a b : number) (w : World) :
  result (add a b) w = result (add b a) w.
Proof.
  destruct (add_run a b) as (l & H), (add_run b a) as (l' & H').
  unfold result. rewrite H, H'. cbn [snd].
  rewrite (andb_comm (printable b)).
  destruct (printable a && printable b); [| reflexivity].
  apply FloatFacts.arith_comm; [apply Z.add_comm | apply FloatFacts.add_comm].
Qed.

Lemma multiply_either_order (a b : number) (w : World) :
  result (multiply a b) w = result (multiply b a) w.
Proof.
  destruct (multiply_run a b) as (l & H), (multiply_run b a) as (l' & H').
  unfold result. rewrite H, H'. cbn [snd].
  rewrite (andb_comm (printable b)).
  destruct (printable a && printable b); [| reflexivity].
  apply FloatFacts.arith_comm; [apply Z.mul_comm | apply FloatFacts.mul_comm].
Qed.

(** X20: [add] returns the same for its operands in either order, for
    floats (all NaNs being one value) and for ints. *)
Theorem add_commutes :
  (forall (a b : float) (w : World), result (add a b) w = result (add b a) w) /\
  (forall (a b : Z) (w : World), result (add a b) w = result (add b a) w).
Proof.
  split; intros a b w; apply add_either_order.
Qed.

(** X21: [multiply] returns the same for its operands in either order,
    for floats (all NaNs being one value) and for ints. *)
Theorem multiply_commutes :
  (forall (a b : float) (w : World), result (multiply a b) w = result (multiply b a) w) /\
  (forall (a b : Z) (w : World), result (multiply a b) w = result (multiply b a) w).
Proof.
  split; intros a b w; apply multiply_either_order.
Qed.

